(** * Mesa visualization tutorial: portrayal callbacks and the Histogram component

    A shallow embedding of the Python code cells of
    [docs/tutorials/visualization_tutorial.ipynb]:

    - Part 1: the constant [agent_portrayal];
    - Part 2: the wealth-threshold [agent_portrayal];
    - Part 3: the same [agent_portrayal] again, and the custom [Histogram]
      component.

    Python objects live in a heap of attribute dictionaries; every function of
    the notebook is a computation in a state-and-exception monad over that
    heap and over the log of calls made into Matplotlib and Solara. *)

From Stdlib Require Import ZArith Floats.SpecFloat.
From stdpp Require Import gmap strings list fin_maps.

(** ** Python values *)

(** Heap addresses of Python objects. *)
Definition loc := positive.

(** The values the notebook manipulates.  [int] is unbounded, so it is [Z];
    a [float] is an IEEE-754 datum: a signed zero, a signed infinity, NaN, or
    a finite number with sign, mantissa and exponent; [bool] is kept apart
    from [int] although Python makes it a subclass of it.  A string is the
    sequence of its characters. *)
#[warnings="-register-all"]
Inductive value :=
| VNone
| VBool (b : bool)
| VInt (n : Z)
| VFloat (f : spec_float)
| VStr (s : string)
| VList (vs : list value)
| VRef (l : loc).
Arguments VRef l%_positive.

(** Exceptions the code can raise. *)
Inductive exn :=
| AttributeError (name : string)
| TypeError.

(** ** Calls into the plotting and display libraries *)

(** Handles of the Matplotlib objects (figures, axes) created while running. *)
Definition handle := nat.

(** Modelled from the spec: Matplotlib's [Figure], [Figure.subplots] and
    [Axes.hist], Solara's [FigureMatplotlib] and Mesa's [update_counter] are
    libraries outside the notebook.  Following section 4.2 (a freshly created
    drawing surface, a fixed-bin-count histogram rendered into it, the surface
    handed to a display primitive, a re-render trigger read first), each call
    is recorded with its arguments; what the libraries do with them is not
    modelled. *)
Inductive call :=
| CounterGet
| NewFigure (fig : handle)
| Subplots (fig ax : handle)
| Hist (ax : handle) (data : list value) (bins : Z)
| FigureMatplotlib (fig : handle).

(** ** The world and the monad *)

Record world := World {
  heap : gmap loc (gmap string value);
  next_handle : handle;
  calls : list call
}.

Inductive outcome (A : Type) :=
| Ok (a : A)
| Raise (e : exn).
Arguments Ok {A} a.
Arguments Raise {A} e.

(** A computation takes the world and gives an outcome and the world after
    it.  A raised exception keeps the world reached so far: Python undoes
    nothing. *)
Definition M (A : Type) : Type := world → outcome A * world.

#[export] Instance M_ret : MRet M := λ A a σ, (Ok a, σ).

#[export] Instance M_bind : MBind M := λ A B k m σ,
  match m σ with
  | (Ok a, σ') => k a σ'
  | (Raise e, σ') => (Raise e, σ')
  end.

Definition raise {A} (e : exn) : M A := λ σ, (Raise e, σ).

(** ** Python primitives used by the notebook *)

(** The instance attribute [name] of [v], if [v] is an object that has it.
    Numbers, strings, lists and [None] have no attribute called [wealth] or
    [agents], the only names the notebook reads. *)
Definition lookup_attr (σ : world) (v : value) (name : string) : option value :=
  match v with
  | VRef l => heap σ !! l ≫= (λ o : gmap string value, o !! name)
  | _ => None
  end.

(** [v.name] *)
Definition getattr (v : value) (name : string) : M value := λ σ,
  match lookup_attr σ v name with
  | Some x => (Ok x, σ)
  | None => (Raise (AttributeError name), σ)
  end.

(** [x > 0], the comparison with the [int] literal zero.  On [int] it is the
    order of the integers, [True] is 1 and [False] is 0, a [float] is above
    zero when it is positive (NaN is not, nor is either zero); for every other
    operand Python raises [TypeError]. *)
Definition py_gt0 (x : value) : M bool :=
  match x with
  | VInt n => mret (0 <? n)%Z
  | VBool b => mret b
  | VFloat f => mret (SFltb (S754_zero false) f)
  | _ => raise TypeError
  end.

(** The elements a [for] clause draws from [v]: those of a list, the
    characters of a string; nothing else here is iterable. *)
Definition py_iter (v : value) : M (list value) :=
  match v with
  | VList vs => mret vs
  | VStr s => mret ((λ c, VStr (String c EmptyString)) <$> String.list_ascii_of_string s)
  | _ => raise TypeError
  end.

(** ** Library calls *)

Definition emit (c : call) : M unit := λ σ,
  (Ok tt, World (heap σ) (next_handle σ) (calls σ ++ [c])).

Definition fresh : M handle := λ σ,
  (Ok (next_handle σ), World (heap σ) (S (next_handle σ)) (calls σ)).

(** [update_counter.get()] *)
Definition update_counter_get : M unit := emit CounterGet.

(** [Figure()] *)
Definition Figure : M handle :=
  fig ← fresh; emit (NewFigure fig);; mret fig.

(** [fig.subplots()] *)
Definition subplots (fig : handle) : M handle :=
  ax ← fresh; emit (Subplots fig ax);; mret ax.

(** [ax.hist(data, bins=bins)] *)
Definition hist (ax : handle) (data : list value) (bins : Z) : M unit :=
  emit (Hist ax data bins).

(** [solara.FigureMatplotlib(fig)] *)
Definition solara_FigureMatplotlib (fig : handle) : M unit :=
  emit (FigureMatplotlib fig).

(** ** The notebook *)

(** Part 1 - Basic Dashboard *)
Module Part1.

Definition agent_portrayal (agent : value) : M (gmap string value) :=
  mret (<["size" := VInt 50]> (<["color" := VStr "tab:blue"]> ∅)).

End Part1.

(** Part 2 - Dynamic Agent Representation *)
Module Part2.

Definition agent_portrayal (agent : value) : M (gmap string value) :=
  let size := 10%Z in
  let color := "tab:red" in
  wealth ← getattr agent "wealth";
  above ← py_gt0 wealth;
  let '(size, color) := if above : bool then (50%Z, "tab:blue") else (size, color) in
  mret (<["color" := VStr color]> (<["size" := VInt size]> ∅)).

End Part2.

(** Part 3 - Custom Components *)
Module Part3.

Definition agent_portrayal (agent : value) : M (gmap string value) :=
  let size := 10%Z in
  let color := "tab:red" in
  wealth ← getattr agent "wealth";
  above ← py_gt0 wealth;
  let '(size, color) := if above : bool then (50%Z, "tab:blue") else (size, color) in
  mret (<["color" := VStr color]> (<["size" := VInt size]> ∅)).

(** [[agent.wealth for agent in model.agents]] *)
Definition wealth_vals (model : value) : M (list value) :=
  agents ← getattr model "agents";
  it ← py_iter agents;
  mapM (λ agent, getattr agent "wealth") it.

(** The body that [@solara.component] runs at every render; it ends without
    a [return], so it answers [None]. *)
Definition Histogram (model : value) : M value :=
  update_counter_get;;
  fig ← Figure;
  ax ← subplots fig;
  wealth_vals ← wealth_vals model;
  hist ax wealth_vals 10;;
  solara_FigureMatplotlib fig;;
  mret VNone.

End Part3.

(** ** What the claims speak about *)

(** The portrayal dictionary with the two given fields. *)
Definition portrayal (size : Z) (color : string) : gmap string value :=
  {[ "size" := VInt size; "color" := VStr color ]}.

(** Numbers: [bool], [int] and [float]. *)
Definition is_numeric (w : value) : bool :=
  match w with
  | VBool _ | VInt _ | VFloat _ => true
  | _ => false
  end.

(** A number that is less than or equal to zero. *)
Definition num_le0 (w : value) : bool :=
  match w with
  | VInt n => (n <=? 0)%Z
  | VBool b => negb b
  | VFloat f => SFleb f (S754_zero false)
  | _ => false
  end.

(** A number that is strictly greater than zero. *)
Definition num_gt0 (w : value) : bool :=
  match w with
  | VInt n => (n >? 0)%Z
  | VBool b => b
  | VFloat f => match SFcompare f (S754_zero false) with Some Gt => true | _ => false end
  | _ => false
  end.

(** The outcome is an [AttributeError]. *)
Definition is_attribute_error {A} (r : outcome A) : Prop :=
  ∃ name, r = Raise (AttributeError name).

(** The library calls made between the world [σ] and a later world [σ']. *)
Definition emitted (σ σ' : world) : list call :=
  drop (length (calls σ)) (calls σ').

(** The histograms drawn by a sequence of calls: the data and the number of
    bins of each. *)
Definition histograms (cs : list call) : list (list value * Z) :=
  omap (λ c, match c with Hist _ data bins => Some (data, bins) | _ => None end) cs.

(** The surfaces handed to the display primitive by a sequence of calls. *)
Definition displayed (cs : list call) : list handle :=
  omap (λ c, match c with FigureMatplotlib fig => Some fig | _ => None end) cs.

(** The wealth of each of the agents [ags] that has one. *)
Definition agent_wealths (σ : world) (ags : list value) : list value :=
  omap (λ a, lookup_attr σ a "wealth") ags.

(** ** A small population to run the code on *)

Module Demo.

Definition rich : gmap string value := {[ "unique_id" := VInt 1; "wealth" := VInt 3 ]}.
Definition broke : gmap string value := {[ "unique_id" := VInt 2; "wealth" := VInt 0 ]}.
Definition rich' : gmap string value := {[ "unique_id" := VInt 3; "wealth" := VInt 3 ]}.
Definition ghost : gmap string value := {[ "unique_id" := VInt 4 ]}.
Definition named : gmap string value := {[ "wealth" := VStr "much" ]}.

Definition money_model : gmap string value :=
  {[ "agents" := VList [VRef 1; VRef 2; VRef 3] ]}.

Definition σ0 : world :=
  World {[ 1%positive := rich; 2%positive := broke; 3%positive := rich';
           4%positive := ghost; 5%positive := named; 9%positive := money_model ]}
        0 [].

End Demo.

(** ** Further notions and inputs *)

(** What a [for] clause accepts: a list or a string. *)
Definition iterable (v : value) : bool :=
  match v with
  | VList _ | VStr _ => true
  | _ => false
  end.


(** The calls every invocation of Histogram starts with, [fig] being the
    handle it is given for its figure. *)
Definition setup_calls (fig : handle) : list call :=
  [CounterGet; NewFigure fig; Subplots fig (S fig)].

(** Agents and models off the beaten track: a wealth that is NaN, one that
    is [True], an agent without wealth; a model with no agent, one whose
    [agents] is a number, one without [agents], one with an agent that has no
    wealth. *)
Module Edge.

Definition nan_agent : gmap string value := {[ "wealth" := VFloat S754_nan ]}.
Definition bool_agent : gmap string value := {[ "wealth" := VBool true ]}.
Definition no_wealth : gmap string value := {[ "unique_id" := VInt 3 ]}.
Definition text_agent : gmap string value := {[ "wealth" := VStr "much" ]}.

Definition empty_model : gmap string value := {[ "agents" := VList [] ]}.
Definition odd_model : gmap string value := {[ "agents" := VInt 7 ]}.
Definition bare_model : gmap string value := ∅.
Definition gap_model : gmap string value := {[ "agents" := VList [VRef 2; VRef 3] ]}.
Definition fine_model : gmap string value := {[ "agents" := VList [VRef 1; VRef 2; VRef 1] ]}.

Definition σ1 : world :=
  World {[ 1%positive := nan_agent; 2%positive := bool_agent; 3%positive := no_wealth;
           4%positive := text_agent;
           10%positive := empty_model; 11%positive := odd_model;
           12%positive := bare_model; 13%positive := gap_model;
           14%positive := fine_model ]}
        4 [CounterGet].


End Edge.

(** ** Running a bind *)

Lemma bind_run {A B} (m : M A) (k : A → M B) σ :
  (m ≫= k) σ =
    match m σ with
    | (Ok a, σ') => k a σ'
    | (Raise e, σ') => (Raise e, σ')
    end.
Proof. reflexivity. Qed.

(** ** The threshold rule *)

(** What [x > 0] answers on a number. *)
Lemma py_gt0_numeric w σ :
  is_numeric w = true → ∃ b, py_gt0 w σ = (Ok b, σ).
Proof. destruct w; intros Hn; try discriminate Hn; eexists; reflexivity. Qed.

Lemma py_gt0_not_numeric w σ :
  is_numeric w = false → py_gt0 w σ = (Raise TypeError, σ).
Proof. by destruct w. Qed.

Lemma SFleb_zero_not_above f :
  SFleb f (S754_zero false) = true → SFltb (S754_zero false) f = false.
Proof. destruct f as [s|s| |s m e]; try destruct s; cbn; congruence. Qed.

Lemma SFcompare_zero_above f :
  SFcompare f (S754_zero false) = Some Gt → SFltb (S754_zero false) f = true.
Proof. destruct f as [s|s| |s m e]; try destruct s; cbn; congruence. Qed.

Lemma py_gt0_le0 w σ : num_le0 w = true → py_gt0 w σ = (Ok false, σ).
Proof.
  destruct w as [ |b|n|f| | | ]; cbn; try discriminate.
  - by destruct b.
  - intros Hn%Z.leb_le. by rewrite (proj2 (Z.ltb_ge 0 n)).
  - intros Hf. by rewrite SFleb_zero_not_above.
Qed.

Lemma py_gt0_gt0 w σ : num_gt0 w = true → py_gt0 w σ = (Ok true, σ).
Proof.
  destruct w as [ |b|n|f| | | ]; cbn; try discriminate.
  - by intros ->.
  - intros Hn%Z.gtb_gt. by rewrite (proj2 (Z.ltb_lt 0 n)); [|lia].
  - intros Hf. rewrite SFcompare_zero_above; [done|].
    by destruct (SFcompare f (S754_zero false)) as [[]|].
Qed.

(** The whole behaviour of the Part 2 callback, by cases on the attribute. *)
Lemma agent_portrayal_cases agent σ :
  Part2.agent_portrayal agent σ =
    match lookup_attr σ agent "wealth" with
    | None => (Raise (AttributeError "wealth"), σ)
    | Some w =>
        match py_gt0 w σ with
        | (Ok true, _) => (Ok (portrayal 50 "tab:blue"), σ)
        | (Ok false, _) => (Ok (portrayal 10 "tab:red"), σ)
        | (Raise e, _) => (Raise e, σ)
        end
    end.
Proof.
  unfold Part2.agent_portrayal, mbind, M_bind, getattr.
  destruct (lookup_attr σ agent "wealth") as [w|]; [|done].
  destruct w as [ |[]|n|f| | | ]; cbn; try done.
  - by destruct (0 <? n)%Z.
  - by destruct (SFltb _ f).
Qed.

(** Whatever the callback returns is one of the two portrayals, and the
    world after the call is the world before it. *)
Lemma agent_portrayal_returns agent σ d :
  (Part2.agent_portrayal agent σ).1 = Ok d →
  d = portrayal 10 "tab:red" ∨ d = portrayal 50 "tab:blue".
Proof.
  rewrite agent_portrayal_cases.
  destruct (lookup_attr σ agent "wealth") as [w|]; [|done].
  destruct (py_gt0 w σ) as [[[]|e] σ']; cbn; intros [= <-]; auto.
Qed.

Lemma agent_portrayal_world agent σ : (Part2.agent_portrayal agent σ).2 = σ.
Proof.
  rewrite agent_portrayal_cases.
  destruct (lookup_attr σ agent "wealth") as [w|]; [|done].
  by destruct (py_gt0 w σ) as [[[]|e] σ'].
Qed.

(** A wealth that is there but is no number makes the comparison raise. *)
Lemma agent_portrayal_type_error agent σ w :
  lookup_attr σ agent "wealth" = Some w →
  is_numeric w = false →
  Part2.agent_portrayal agent σ = (Raise TypeError, σ).
Proof.
  intros Hw Hnum. rewrite agent_portrayal_cases, Hw.
  by rewrite (py_gt0_not_numeric w σ Hnum).
Qed.

Example demo_rich :
  Part2.agent_portrayal (VRef 1) Demo.σ0 = (Ok (portrayal 50 "tab:blue"), Demo.σ0).
Proof. reflexivity. Qed.

Example demo_broke :
  Part2.agent_portrayal (VRef 2) Demo.σ0 = (Ok (portrayal 10 "tab:red"), Demo.σ0).
Proof. reflexivity. Qed.

Example demo_ghost :
  Part2.agent_portrayal (VRef 4) Demo.σ0 = (Raise (AttributeError "wealth"), Demo.σ0).
Proof. reflexivity. Qed.

Example demo_named :
  Part2.agent_portrayal (VRef 5) Demo.σ0 = (Raise TypeError, Demo.σ0).
Proof. reflexivity. Qed.

(** ** Properties of the portrayal callbacks *)

(** C1: for every agent whose wealth is a number less than or equal to zero,
    the threshold [agent_portrayal] returns the dictionary with size 10 and
    color "tab:red" (and leaves the world as it was). *)
Theorem threshold_nonpositive_wealth σ agent w :
  lookup_attr σ agent "wealth" = Some w →
  num_le0 w = true →
  Part2.agent_portrayal agent σ = (Ok (portrayal 10 "tab:red"), σ).
Proof.
  intros Hw Hle. rewrite agent_portrayal_cases, Hw.
  by rewrite (py_gt0_le0 w σ Hle).
Qed.

Lemma threshold_nonpositive_wealth_witness :
  lookup_attr Demo.σ0 (VRef 2) "wealth" = Some (VInt 0)
  ∧ num_le0 (VInt 0) = true
  ∧ Part2.agent_portrayal (VRef 2) Demo.σ0 = (Ok (portrayal 10 "tab:red"), Demo.σ0).
Proof.
  split; [reflexivity|]. split; [reflexivity|].
  apply (threshold_nonpositive_wealth Demo.σ0 (VRef 2) (VInt 0)); reflexivity.
Defined.

(** C2: for every agent whose wealth is a number strictly greater than
    zero, the threshold [agent_portrayal] returns the dictionary with size 50
    and color "tab:blue". *)
Theorem threshold_positive_wealth σ agent w :
  lookup_attr σ agent "wealth" = Some w →
  num_gt0 w = true →
  Part2.agent_portrayal agent σ = (Ok (portrayal 50 "tab:blue"), σ).
Proof.
  intros Hw Hgt. rewrite agent_portrayal_cases, Hw.
  by rewrite (py_gt0_gt0 w σ Hgt).
Qed.

Lemma threshold_positive_wealth_witness :
  lookup_attr Demo.σ0 (VRef 1) "wealth" = Some (VInt 3)
  ∧ num_gt0 (VInt 3) = true
  ∧ Part2.agent_portrayal (VRef 1) Demo.σ0 = (Ok (portrayal 50 "tab:blue"), Demo.σ0).
Proof.
  split; [reflexivity|]. split; [reflexivity|].
  apply (threshold_positive_wealth Demo.σ0 (VRef 1) (VInt 3)); reflexivity.
Defined.

(** C4: the threshold [agent_portrayal] is deterministic and free of side
    effects: two agents with the same wealth, in whatever worlds, get the
    same outcome; a second call on the same agent repeats the first; and
    each call leaves the whole world (the heap with the agent in it, the
    handles, the library calls made so far) exactly as it found it. *)
Theorem threshold_deterministic_and_pure σ1 σ2 a1 a2 :
  lookup_attr σ1 a1 "wealth" = lookup_attr σ2 a2 "wealth" →
  (Part2.agent_portrayal a1 σ1).1 = (Part2.agent_portrayal a2 σ2).1
  ∧ (Part2.agent_portrayal a1 (Part2.agent_portrayal a1 σ1).2).1
    = (Part2.agent_portrayal a1 σ1).1
  ∧ (Part2.agent_portrayal a1 σ1).2 = σ1
  ∧ (Part2.agent_portrayal a2 σ2).2 = σ2.
Proof.
  intros Heq. rewrite !agent_portrayal_world. split; [|done].
  rewrite !agent_portrayal_cases, Heq.
  destruct (lookup_attr σ2 a2 "wealth") as [w|]; [|done].
  destruct w as [ |[]|n|f| | | ]; cbn; try done.
  - by destruct (0 <? n)%Z.
  - by destruct (SFltb _ f).
Qed.

Lemma threshold_deterministic_and_pure_witness :
  (Part2.agent_portrayal (VRef 1) Demo.σ0).1
  = (Part2.agent_portrayal (VRef 3) Demo.σ0).1
  ∧ (Part2.agent_portrayal (VRef 1) Demo.σ0).2 = Demo.σ0.
Proof.
  destruct (threshold_deterministic_and_pure Demo.σ0 Demo.σ0 (VRef 1) (VRef 3))
    as (Hsame & _ & Hworld & _); [reflexivity|].
  exact (conj Hsame Hworld).
Defined.

(** C5: whichever [agent_portrayal] produced a portrayal (the constant one
    of Part 1, the threshold one of Part 2 or of Part 3), its size field is
    an integer that is not negative. *)
Theorem portrayal_size_nonnegative agent σ d :
  (Part1.agent_portrayal agent σ).1 = Ok d
  ∨ (Part2.agent_portrayal agent σ).1 = Ok d
  ∨ (Part3.agent_portrayal agent σ).1 = Ok d →
  ∃ n, d !! "size" = Some (VInt n) ∧ (0 ≤ n)%Z.
Proof.
  intros [[= <-]|[Hd|Hd]].
  - exists 50%Z. by split.
  - destruct (agent_portrayal_returns _ _ _ Hd) as [-> | ->];
      [exists 10%Z | exists 50%Z]; by split.
  - destruct (agent_portrayal_returns _ _ _ Hd) as [-> | ->];
      [exists 10%Z | exists 50%Z]; by split.
Qed.

Lemma portrayal_size_nonnegative_witness :
  ∃ n, portrayal 10 "tab:red" !! "size" = Some (VInt n) ∧ (0 ≤ n)%Z.
Proof.
  apply (portrayal_size_nonnegative (VRef 2) Demo.σ0 (portrayal 10 "tab:red")).
  right; left. reflexivity.
Defined.

(** C7: a portrayal returned by the threshold [agent_portrayal] has exactly
    the two keys [size] and [color]; the first holds an integer, the second
    a string naming a color. *)
Theorem threshold_fixed_shape agent σ d :
  (Part2.agent_portrayal agent σ).1 = Ok d →
  dom d = {[ "size"; "color" ]}
  ∧ (∃ n, d !! "size" = Some (VInt n))
  ∧ (∃ c, d !! "color" = Some (VStr c)).
Proof.
  intros Hd. destruct (agent_portrayal_returns _ _ _ Hd) as [-> | ->];
    (split; [unfold portrayal; rewrite dom_insert_L, dom_singleton_L; done|]);
    split; eexists; reflexivity.
Qed.

Lemma threshold_fixed_shape_witness :
  dom (portrayal 50 "tab:blue") = {[ "size"; "color" ]}
  ∧ (∃ n, portrayal 50 "tab:blue" !! "size" = Some (VInt n))
  ∧ (∃ c, portrayal 50 "tab:blue" !! "color" = Some (VStr c)).
Proof.
  apply (threshold_fixed_shape (VRef 1) Demo.σ0 (portrayal 50 "tab:blue")).
  reflexivity.
Defined.

(** C8: the threshold [agent_portrayal] returns a portrayal, raising
    nothing, for every agent whose wealth attribute is a number; and it
    raises an attribute error exactly when the agent has no wealth
    attribute. *)
Theorem threshold_fails_only_without_wealth σ agent :
  (∀ w, lookup_attr σ agent "wealth" = Some w → is_numeric w = true →
        ∃ d, Part2.agent_portrayal agent σ = (Ok d, σ))
  ∧ (is_attribute_error (Part2.agent_portrayal agent σ).1
     ↔ lookup_attr σ agent "wealth" = None).
Proof.
  rewrite agent_portrayal_cases. split.
  - intros w -> Hnum. destruct (py_gt0_numeric w σ Hnum) as [[] ->]; eauto.
  - destruct (lookup_attr σ agent "wealth") as [w|]; cbn.
    + split; [|done]. intros [name Hraise]. exfalso.
      destruct w as [ |[]|n|f| | | ]; cbn in Hraise; try discriminate Hraise.
      * by destruct (0 <? n)%Z.
      * by destruct (SFltb _ f).
    + split; [done|]. intros _. by exists "wealth".
Qed.

Lemma threshold_fails_only_without_wealth_witness :
  (∃ d, Part2.agent_portrayal (VRef 1) Demo.σ0 = (Ok d, Demo.σ0))
  ∧ is_attribute_error (Part2.agent_portrayal (VRef 4) Demo.σ0).1.
Proof.
  split.
  - apply (proj1 (threshold_fails_only_without_wealth Demo.σ0 (VRef 1)) (VInt 3));
      reflexivity.
  - apply (proj2 (threshold_fails_only_without_wealth Demo.σ0 (VRef 4))).
    reflexivity.
Defined.

(** C9: the Part 1 [agent_portrayal] is the constant computation that
    returns the dictionary with color "tab:blue" and size 50: it is a bare
    return, with no attribute read in it, so every agent (with positive,
    zero or negative wealth, or with no wealth at all) gets this dictionary
    in every world, and the world stays as it was. *)
Theorem basic_portrayal_constant :
  Part1.agent_portrayal = (λ _, mret (portrayal 50 "tab:blue"))
  ∧ ∀ agent σ,
      Part1.agent_portrayal agent σ = (Ok (portrayal 50 "tab:blue"), σ).
Proof. split; reflexivity. Qed.

(** C10: the [agent_portrayal] of Part 2 and the one defined again in
    Part 3 agree on every agent in every world. *)
Theorem threshold_part2_part3_equal agent σ :
  Part2.agent_portrayal agent σ = Part3.agent_portrayal agent σ.
Proof. reflexivity. Qed.

(** ** The Histogram component *)

(** Reading one attribute off every element of a list: all of them, in
    order, or the attribute error of the first element that lacks it. *)
Lemma mapM_getattr name (l : list value) σ :
  mapM (λ a, getattr a name) l σ =
    match mapM (λ a, lookup_attr σ a name) l with
    | Some vs => (Ok vs, σ)
    | None => (Raise (AttributeError name), σ)
    end.
Proof.
  induction l as [|a l IH]; [done|].
  change (mapM (λ a, getattr a name) (a :: l))
    with (y ← getattr a name; k ← mapM (λ a, getattr a name) l; mret (y :: k)).
  change (mapM (λ a, lookup_attr σ a name) (a :: l))
    with (y ← lookup_attr σ a name; k ← mapM (λ a, lookup_attr σ a name) l; mret (y :: k)).
  rewrite bind_run. unfold getattr at 1.
  destruct (lookup_attr σ a name) as [w|]; [|done].
  rewrite bind_run, IH. cbn.
  by destruct (mapM (λ a, lookup_attr σ a name) l).
Qed.

(** The comprehension reads the heap and nothing else, and changes nothing. *)
Lemma wealth_vals_frame model σ σ' :
  heap σ' = heap σ →
  Part3.wealth_vals model σ' = ((Part3.wealth_vals model σ).1, σ').
Proof.
  intros Hheap. unfold Part3.wealth_vals, mbind, M_bind, getattr.
  assert (∀ v n, lookup_attr σ' v n = lookup_attr σ v n) as Hlook.
  { intros v n. unfold lookup_attr. by rewrite Hheap. }
  rewrite Hlook. destruct (lookup_attr σ model "agents") as [agents|]; [|done].
  assert (∀ l : list value,
    mapM (λ a, getattr a "wealth") l σ' = ((mapM (λ a, getattr a "wealth") l σ).1, σ'))
    as Hmap.
  { intros l. rewrite !mapM_getattr.
    rewrite (mapM_ext _ (λ a, lookup_attr σ a "wealth")) by (intros; apply Hlook).
    by destruct (mapM _ l). }
  destruct agents; cbn; try done; apply Hmap.
Qed.

Lemma wealth_vals_world model σ : (Part3.wealth_vals model σ).2 = σ.
Proof. by rewrite (wealth_vals_frame model σ σ). Qed.

(** One invocation, step by step: the trigger is read, a figure and its
    axes are created, the wealths are collected; if that succeeds the
    histogram is drawn with 10 bins and the figure is displayed. *)
Lemma Histogram_run model σ :
  Part3.Histogram model σ =
    let fig := next_handle σ in
    let ax := S fig in
    let setup := [CounterGet; NewFigure fig; Subplots fig ax] in
    match (Part3.wealth_vals model σ).1 with
    | Ok vals =>
        (Ok VNone,
         World (heap σ) (S ax)
               (calls σ ++ setup ++ [Hist ax vals 10; FigureMatplotlib fig]))
    | Raise e => (Raise e, World (heap σ) (S ax) (calls σ ++ setup))
    end.
Proof.
  unfold Part3.Histogram, update_counter_get, Figure, subplots, hist,
    solara_FigureMatplotlib, emit, fresh, mbind, M_bind, mret, M_ret. cbn.
  rewrite (wealth_vals_frame model σ) by done.
  destruct (Part3.wealth_vals model σ).1 as [vals|e]; cbn;
    by rewrite <- !(assoc_L (++)).
Qed.

Lemma Histogram_heap model σ : heap (Part3.Histogram model σ).2 = heap σ.
Proof. rewrite Histogram_run. cbn. by destruct (Part3.wealth_vals model σ).1. Qed.

Lemma Histogram_emitted model σ :
  emitted σ (Part3.Histogram model σ).2 =
    let fig := next_handle σ in
    [CounterGet; NewFigure fig; Subplots fig (S fig)] ++
    match (Part3.wealth_vals model σ).1 with
    | Ok vals => [Hist (S fig) vals 10; FigureMatplotlib fig]
    | Raise _ => []
    end.
Proof.
  rewrite Histogram_run. unfold emitted. cbn.
  destruct (Part3.wealth_vals model σ).1; cbn; by rewrite drop_app_length.
Qed.

(** What an invocation answers and draws is fixed by the heap alone: the
    handles given out and the calls made earlier play no part. *)
Lemma Histogram_heap_only model σ σ' :
  heap σ' = heap σ →
  (Part3.Histogram model σ').1 = (Part3.Histogram model σ).1
  ∧ histograms (emitted σ' (Part3.Histogram model σ').2)
    = histograms (emitted σ (Part3.Histogram model σ).2).
Proof.
  intros Hheap. rewrite !Histogram_emitted, !Histogram_run. cbn.
  rewrite (wealth_vals_frame model σ σ') by done. cbn.
  by destruct (Part3.wealth_vals model σ).1.
Qed.

(** The surface handed to the display primitive is the figure created in
    this very invocation; when the extraction raises, nothing is drawn and
    nothing is displayed. *)
Lemma Histogram_displays_fresh_figure model σ vals :
  (Part3.wealth_vals model σ).1 = Ok vals →
  displayed (emitted σ (Part3.Histogram model σ).2) = [next_handle σ].
Proof. intros Hrun. by rewrite Histogram_emitted, Hrun. Qed.

Lemma Histogram_raise_draws_nothing model σ e :
  (Part3.wealth_vals model σ).1 = Raise e →
  (Part3.Histogram model σ).1 = Raise e
  ∧ histograms (emitted σ (Part3.Histogram model σ).2) = []
  ∧ displayed (emitted σ (Part3.Histogram model σ).2) = [].
Proof.
  intros Hrun. rewrite Histogram_emitted, Histogram_run. cbn. by rewrite Hrun.
Qed.

Example demo_histogram :
  Part3.Histogram (VRef 9) Demo.σ0 =
    (Ok VNone,
     World (heap Demo.σ0) 2
           [CounterGet; NewFigure 0; Subplots 0 1;
            Hist 1 [VInt 3; VInt 0; VInt 3] 10; FigureMatplotlib 0]).
Proof. reflexivity. Qed.

(** C3: when the model's agent collection is [ags] and every agent in it
    has a wealth, the Histogram component extracts a sequence [vals] (the
    data of the one histogram it draws, with 10 bins) that is as long as
    [ags], holds the wealth of each agent at the agent's position, and
    is, as a multiset, the wealths of the agents in whatever order the
    collection is enumerated. *)
Theorem histogram_extracts_every_wealth σ model ags :
  lookup_attr σ model "agents" = Some (VList ags) →
  Forall (λ a, is_Some (lookup_attr σ a "wealth")) ags →
  ∃ vals,
    (Part3.wealth_vals model σ).1 = Ok vals
    ∧ histograms (emitted σ (Part3.Histogram model σ).2) = [(vals, 10%Z)]
    ∧ length vals = length ags
    ∧ Forall2 (λ a w, lookup_attr σ a "wealth" = Some w) ags vals
    ∧ ∀ ags', ags' ≡ₚ ags → vals ≡ₚ agent_wealths σ ags'.
Proof.
  intros Hags Hall.
  destruct (mapM_is_Some_2 (λ a, lookup_attr σ a "wealth") ags Hall) as [vals Hvals].
  assert ((Part3.wealth_vals model σ).1 = Ok vals) as Hrun.
  { unfold Part3.wealth_vals. rewrite bind_run. unfold getattr at 1.
    rewrite Hags, bind_run. change (py_iter (VList ags) σ) with (Ok ags, σ).
    cbv beta iota. by rewrite mapM_getattr, Hvals. }
  exists vals. split; [done|]. split.
  { by rewrite Histogram_emitted, Hrun. }
  pose proof (mapM_Some_1 _ _ _ Hvals) as Hrel.
  split; [by rewrite (Forall2_length _ _ _ Hrel)|]. split; [done|].
  intros ags' Hperm. unfold agent_wealths. rewrite Hperm.
  clear -Hrel. induction Hrel as [|a w ags vals Hw _ IH]; [done|].
  cbn. by rewrite Hw, IH.
Qed.

Lemma histogram_extracts_every_wealth_witness :
  ∃ vals,
    (Part3.wealth_vals (VRef 9) Demo.σ0).1 = Ok vals
    ∧ histograms (emitted Demo.σ0 (Part3.Histogram (VRef 9) Demo.σ0).2) = [(vals, 10%Z)]
    ∧ length vals = 3
    ∧ vals ≡ₚ [VInt 0; VInt 3; VInt 3].
Proof.
  destruct (histogram_extracts_every_wealth Demo.σ0 (VRef 9) [VRef 1; VRef 2; VRef 3])
    as (vals & Hrun & Hdrawn & Hlen & _ & Hperm).
  - reflexivity.
  - repeat constructor; eexists; reflexivity.
  - exists vals. split; [exact Hrun|]. split; [exact Hdrawn|]. split; [exact Hlen|].
    apply (Hperm [VRef 2; VRef 3; VRef 1]).
    apply (Permutation_app_comm [VRef 2; VRef 3] [VRef 1]).
Defined.

(** C6: Histogram keeps nothing from one invocation to the next.  After
    any number [n] of invocations on a model, the heap (the agents and
    their wealth) is as it was at first, and one more invocation extracts
    the same wealth sequence, ends with the same outcome and draws the same
    histogram as the very first one did. *)
Theorem histogram_stateless_idempotent model σ n :
  let σn := Nat.iter n (λ s, (Part3.Histogram model s).2) σ in
  heap σn = heap σ
  ∧ (Part3.wealth_vals model σn).1 = (Part3.wealth_vals model σ).1
  ∧ (Part3.Histogram model σn).1 = (Part3.Histogram model σ).1
  ∧ histograms (emitted σn (Part3.Histogram model σn).2)
    = histograms (emitted σ (Part3.Histogram model σ).2).
Proof.
  cbn zeta.
  assert (heap (Nat.iter n (λ s, (Part3.Histogram model s).2) σ) = heap σ) as Hheap.
  { induction n as [|n IH]; [done|]. cbn. by rewrite Histogram_heap. }
  split; [done|]. split.
  - by rewrite (wealth_vals_frame model σ _ Hheap).
  - by apply Histogram_heap_only.
Qed.


(** ** Further properties of the threshold rule *)

(** On a number, [x > 0] answers what the order of the numbers says. *)
Lemma py_gt0_num_gt0 w σ :
  is_numeric w = true → py_gt0 w σ = (Ok (num_gt0 w), σ).
Proof.
  destruct w as [ |b|n|f| | | ]; cbn; try discriminate; intros _.
  - done.
  - by rewrite Z.gtb_ltb.
  - unfold SFltb. by destruct f as [s|s| |s m e]; try destruct s.
Qed.

Lemma agent_portrayal_numeric agent σ w :
  lookup_attr σ agent "wealth" = Some w →
  is_numeric w = true →
  Part2.agent_portrayal agent σ =
    (Ok (if num_gt0 w then portrayal 50 "tab:blue" else portrayal 10 "tab:red"), σ).
Proof.
  intros Hw Hnum. rewrite agent_portrayal_cases, Hw, (py_gt0_num_gt0 w σ Hnum).
  by destruct (num_gt0 w).
Qed.

(** The agent behind a returned portrayal has a wealth that is a number. *)
Lemma agent_portrayal_ok_numeric agent σ d :
  (Part2.agent_portrayal agent σ).1 = Ok d →
  ∃ w, lookup_attr σ agent "wealth" = Some w ∧ is_numeric w = true.
Proof.
  rewrite agent_portrayal_cases.
  destruct (lookup_attr σ agent "wealth") as [w|]; [|done].
  destruct (is_numeric w) eqn:Hnum; [eauto|].
  by rewrite (py_gt0_not_numeric w σ Hnum).
Qed.

(** X1: a wealth that is a number and is not above zero gives the small red
    portrayal; this takes in the float NaN, which is neither above zero nor
    below or equal to it. *)
Theorem threshold_number_not_above_zero σ agent w :
  lookup_attr σ agent "wealth" = Some w →
  is_numeric w = true →
  num_gt0 w = false →
  Part2.agent_portrayal agent σ = (Ok (portrayal 10 "tab:red"), σ).
Proof.
  intros Hw Hnum Hgt. by rewrite (agent_portrayal_numeric agent σ w Hw Hnum), Hgt.
Qed.

Lemma threshold_number_not_above_zero_witness :
  num_le0 (VFloat S754_nan) = false
  ∧ Part2.agent_portrayal (VRef 1) Edge.σ1 = (Ok (portrayal 10 "tab:red"), Edge.σ1).
Proof.
  split; [reflexivity|].
  apply (threshold_number_not_above_zero Edge.σ1 (VRef 1) (VFloat S754_nan));
    reflexivity.
Defined.

(** X2: the portrayal tells the sign of the wealth.  Behind every returned
    portrayal there is a wealth that is a number, and the color is
    "tab:blue", and the size 50, exactly when that number is above zero. *)
Theorem threshold_color_reveals_sign σ agent d :
  (Part2.agent_portrayal agent σ).1 = Ok d →
  ∃ w, lookup_attr σ agent "wealth" = Some w
       ∧ is_numeric w = true
       ∧ (d !! "color" = Some (VStr "tab:blue") ↔ num_gt0 w = true)
       ∧ (d !! "size" = Some (VInt 50) ↔ num_gt0 w = true).
Proof.
  intros Hd. destruct (agent_portrayal_ok_numeric agent σ d Hd) as (w & Hw & Hnum).
  exists w. split; [done|]. split; [done|].
  rewrite (agent_portrayal_numeric agent σ w Hw Hnum) in Hd.
  cbn in Hd. injection Hd as <-.
  destruct (num_gt0 w); split; split; try done; vm_compute; discriminate.
Qed.

Lemma threshold_color_reveals_sign_witness :
  ∃ w, lookup_attr Demo.σ0 (VRef 2) "wealth" = Some w
       ∧ is_numeric w = true
       ∧ (portrayal 10 "tab:red" !! "color" = Some (VStr "tab:blue") ↔ num_gt0 w = true)
       ∧ (portrayal 10 "tab:red" !! "size" = Some (VInt 50) ↔ num_gt0 w = true).
Proof.
  apply (threshold_color_reveals_sign Demo.σ0 (VRef 2) (portrayal 10 "tab:red")).
  reflexivity.
Defined.

(** X3: the threshold callback has two possible results and no other, and
    they are different: size and color change together, so that size 50 goes
    with "tab:blue" and size 10 with "tab:red", never the other way round. *)
Theorem threshold_size_and_color_together σ agent d :
  (Part2.agent_portrayal agent σ).1 = Ok d →
  (d = portrayal 10 "tab:red" ∨ d = portrayal 50 "tab:blue")
  ∧ (d !! "size" = Some (VInt 50) ↔ d !! "color" = Some (VStr "tab:blue"))
  ∧ (d !! "size" = Some (VInt 10) ↔ d !! "color" = Some (VStr "tab:red")).
Proof.
  intros Hd. destruct (agent_portrayal_returns agent σ d Hd) as [-> | ->];
    (split; [auto|]); split; split; try done; vm_compute; discriminate.
Qed.

Lemma threshold_size_and_color_together_witness :
  (portrayal 50 "tab:blue" = portrayal 10 "tab:red"
   ∨ portrayal 50 "tab:blue" = portrayal 50 "tab:blue")
  ∧ (portrayal 50 "tab:blue" !! "size" = Some (VInt 50)
     ↔ portrayal 50 "tab:blue" !! "color" = Some (VStr "tab:blue"))
  ∧ (portrayal 50 "tab:blue" !! "size" = Some (VInt 10)
     ↔ portrayal 50 "tab:blue" !! "color" = Some (VStr "tab:red")).
Proof.
  apply (threshold_size_and_color_together Demo.σ0 (VRef 1) (portrayal 50 "tab:blue")).
  reflexivity.
Defined.

(** X4: the threshold callback raises [TypeError] exactly when the agent has
    a wealth attribute that is not a number: the comparison with zero is what
    fails, after the attribute has been read. *)
Theorem threshold_type_error_iff σ agent :
  (Part2.agent_portrayal agent σ).1 = Raise TypeError
  ↔ ∃ w, lookup_attr σ agent "wealth" = Some w ∧ is_numeric w = false.
Proof.
  split.
  - rewrite agent_portrayal_cases.
    destruct (lookup_attr σ agent "wealth") as [w|]; [|done].
    destruct (is_numeric w) eqn:Hnum; [|eauto].
    rewrite (py_gt0_num_gt0 w σ Hnum). by destruct (num_gt0 w).
  - intros (w & Hw & Hnum). by rewrite (agent_portrayal_type_error agent σ w Hw Hnum).
Qed.

Lemma threshold_type_error_iff_witness :
  (Part2.agent_portrayal (VRef 4) Edge.σ1).1 = Raise TypeError.
Proof.
  apply (proj2 (threshold_type_error_iff Edge.σ1 (VRef 4))).
  exists (VStr "much"). split; reflexivity.
Defined.

(** X5: on an agent whose wealth is a number, the threshold callback of
    Part 2 does what the constant callback of Part 1 does exactly when the
    wealth is above zero. *)
Theorem threshold_agrees_with_basic_iff_positive σ agent w :
  lookup_attr σ agent "wealth" = Some w →
  is_numeric w = true →
  Part2.agent_portrayal agent σ = Part1.agent_portrayal agent σ
  ↔ num_gt0 w = true.
Proof.
  intros Hw Hnum. rewrite (agent_portrayal_numeric agent σ w Hw Hnum).
  change (Part1.agent_portrayal agent σ) with (Ok (portrayal 50 "tab:blue"), σ).
  destruct (num_gt0 w); split; try done.
Qed.

Lemma threshold_agrees_with_basic_iff_positive_witness :
  Part2.agent_portrayal (VRef 2) Edge.σ1 = Part1.agent_portrayal (VRef 2) Edge.σ1.
Proof.
  apply (proj2 (threshold_agrees_with_basic_iff_positive
                  Edge.σ1 (VRef 2) (VBool true) eq_refl eq_refl)).
  reflexivity.
Defined.

(** ** Further properties of the Histogram component *)

(** The three ways the comprehension can go, by what [model.agents] is. *)
Lemma wealth_vals_list σ model ags :
  lookup_attr σ model "agents" = Some (VList ags) →
  (Part3.wealth_vals model σ).1 =
    match mapM (λ a, lookup_attr σ a "wealth") ags with
    | Some vals => Ok vals
    | None => Raise (AttributeError "wealth")
    end.
Proof.
  intros Hags. unfold Part3.wealth_vals. rewrite bind_run. unfold getattr at 1.
  rewrite Hags, bind_run. change (py_iter (VList ags) σ) with (Ok ags, σ).
  cbv beta iota. rewrite mapM_getattr.
  by destruct (mapM (λ a, lookup_attr σ a "wealth") ags).
Qed.

Lemma wealth_vals_no_agents σ model :
  lookup_attr σ model "agents" = None →
  (Part3.wealth_vals model σ).1 = Raise (AttributeError "agents").
Proof.
  intros Hags. unfold Part3.wealth_vals. rewrite bind_run. unfold getattr at 1.
  by rewrite Hags.
Qed.

Lemma wealth_vals_not_iterable σ model v :
  lookup_attr σ model "agents" = Some v →
  iterable v = false →
  (Part3.wealth_vals model σ).1 = Raise TypeError.
Proof.
  intros Hags Hit. unfold Part3.wealth_vals. rewrite bind_run. unfold getattr at 1.
  rewrite Hags, bind_run. by destruct v.
Qed.

(** The world a failed invocation leaves behind. *)
Lemma Histogram_raise_run model σ e :
  (Part3.wealth_vals model σ).1 = Raise e →
  Part3.Histogram model σ =
    (Raise e,
     World (heap σ) (S (S (next_handle σ)))
           (calls σ ++ setup_calls (next_handle σ))).
Proof. intros Hrun. rewrite Histogram_run. cbn. by rewrite Hrun. Qed.

(** The world a successful invocation leaves behind. *)
Lemma Histogram_ok_run model σ vals :
  (Part3.wealth_vals model σ).1 = Ok vals →
  Part3.Histogram model σ =
    (Ok VNone,
     World (heap σ) (S (S (next_handle σ)))
           (calls σ ++ setup_calls (next_handle σ)
              ++ [Hist (S (next_handle σ)) vals 10; FigureMatplotlib (next_handle σ)])).
Proof. intros Hrun. rewrite Histogram_run. cbn. by rewrite Hrun. Qed.




(** X7: on a model without an [agents] attribute Histogram raises the
    attribute error for [agents].  By then it has read the trigger and
    created a figure and its axes: two handles are used up, nothing is drawn
    or displayed, and the heap is untouched. *)
Theorem histogram_without_agents σ model :
  lookup_attr σ model "agents" = None →
  Part3.Histogram model σ =
    (Raise (AttributeError "agents"),
     World (heap σ) (S (S (next_handle σ))) (calls σ ++ setup_calls (next_handle σ))).
Proof.
  intros Hags. apply Histogram_raise_run. by apply wealth_vals_no_agents.
Qed.

Lemma histogram_without_agents_witness :
  Part3.Histogram (VRef 12) Edge.σ1 =
    (Raise (AttributeError "agents"),
     World (heap Edge.σ1) 6 [CounterGet; CounterGet; NewFigure 4; Subplots 4 5]).
Proof. apply (histogram_without_agents Edge.σ1 (VRef 12)). reflexivity. Defined.

(** X8: when [model.agents] is there but is neither a list nor a string (a
    number, [None], a plain object), the [for] clause raises [TypeError], and
    Histogram with it, again after the figure and its axes were created. *)
Theorem histogram_agents_not_iterable σ model v :
  lookup_attr σ model "agents" = Some v →
  iterable v = false →
  Part3.Histogram model σ =
    (Raise TypeError,
     World (heap σ) (S (S (next_handle σ))) (calls σ ++ setup_calls (next_handle σ))).
Proof.
  intros Hags Hit. apply Histogram_raise_run. by apply (wealth_vals_not_iterable σ model v).
Qed.

Lemma histogram_agents_not_iterable_witness :
  Part3.Histogram (VRef 11) Edge.σ1 =
    (Raise TypeError,
     World (heap Edge.σ1) 6 [CounterGet; CounterGet; NewFigure 4; Subplots 4 5]).
Proof.
  apply (histogram_agents_not_iterable Edge.σ1 (VRef 11) (VInt 7)); reflexivity.
Defined.

(** X9: a model with no agent at all is fine: Histogram draws the histogram
    of the empty sequence, with its 10 bins, and displays the figure. *)
Theorem histogram_of_no_agents σ model :
  lookup_attr σ model "agents" = Some (VList []) →
  Part3.Histogram model σ =
    (Ok VNone,
     World (heap σ) (S (S (next_handle σ)))
           (calls σ ++ setup_calls (next_handle σ)
              ++ [Hist (S (next_handle σ)) [] 10; FigureMatplotlib (next_handle σ)])).
Proof.
  intros Hags. apply Histogram_ok_run. by rewrite (wealth_vals_list σ model [] Hags).
Qed.

Lemma histogram_of_no_agents_witness :
  Part3.Histogram (VRef 10) Edge.σ1 =
    (Ok VNone,
     World (heap Edge.σ1) 6
           [CounterGet; CounterGet; NewFigure 4; Subplots 4 5;
            Hist 5 [] 10; FigureMatplotlib 4]).
Proof. apply (histogram_of_no_agents Edge.σ1 (VRef 10)). reflexivity. Defined.








